(** * tmux_example.py: the TmuxController demonstration script

    A shallow embedding of [daemon/tmux_example.py].  The script is glue code
    around an external [TmuxController]; its statements are embedded as terms
    of a small program monad whose effects are the ones Python gives the
    script (printing, sleeping, calling the controller, raising and catching
    exceptions).  Running a program against an arbitrary controller yields the
    trace of its effects, and the statements below are about these traces.

    The two [import]s ([tmux_controller] at the top, [time] inside the loop)
    are taken to succeed and leave no event; [print] and [time.sleep] are
    taken to return.  Wait times are binary64 floats, as in Python. *)

From Stdlib Require Import List String Ascii Arith ZArith.
From Stdlib Require Import PrimFloat.
Import ListNotations.

Set Implicit Arguments.
Set Warnings "-inexact-float".

Local Open Scope string_scope.
Local Open Scope list_scope.

(** ** What the script takes from outside *)

(** [tmux_controller] is imported, not defined, by the script, so what it
    defines is a parameter: the type of controller instances, the type of
    the value [execute_and_capture] returns together with its [output]
    attribute, and the exceptions that may travel through the script.
    [IndexError] is what Python raises for a subscript out of range. *)
Class External : Type := {
  Ctrl : Type;
  CommandResult : Type;
  output : CommandResult -> string;
  exn : Type;
  IndexError : exn
}.

Section Model.

Context {X : External}.

(** A statement either yields a value or raises. *)
Inductive outcome (A : Type) : Type :=
| Ok (a : A)
| Err (e : exn).
Arguments Err {A} e.

(** The calls into the controller, each with the arguments the script
    passes: [TmuxController.list_sessions()], [TmuxController(session)] and the
    five methods of an instance. *)
Inductive op : Type :=
| ListSessions
| Init (session : string)
| SessionExists (self : Ctrl)
| GetPaneInfo (self : Ctrl)
| ExecuteAndCapture (self : Ctrl) (command : string) (wait_time : float)
| CapturePane (self : Ctrl) (start_line : Z)
| SendCommand (self : Ctrl) (command : string).

(** Modelled from the spec: the module [tmux_controller] is not among the
    sources; what its operations return is the collaborator contract of the
    specification: [list_sessions() -> sequence of session names], an instance
    built from a session name, [session_exists() -> bool],
    [get_pane_info() -> mapping of string to string] (kept in iteration
    order), [execute_and_capture(command, wait_time) -> result with an output
    text field], [capture_pane(start_line) -> text] and
    [send_command(command) -> none]. *)
Definition ret (o : op) : Type :=
  match o with
  | ListSessions => list string
  | Init _ => Ctrl
  | SessionExists _ => bool
  | GetPaneInfo _ => list (string * string)
  | ExecuteAndCapture _ _ _ => CommandResult
  | CapturePane _ _ => string
  | SendCommand _ _ => unit
  end.

(** ** Programs *)

(** The statements of the script: a value, [raise], [print(line)],
    [time.sleep(secs)], a call into the controller, one statement after
    another, and [try: body except e: handler] (which the script never
    uses). *)

Inductive prog : Type -> Type :=
| Ret {R} (r : R) : prog R
| Raise {R} (e : exn) : prog R
| Print (line : string) : prog unit
| Sleep (secs : float) : prog unit
| Call (o : op) : prog (ret o)
| Bind {A R} (p : prog A) (k : A -> prog R) : prog R
| Try {R} (body : prog R) (handler : exn -> prog R) : prog R.

Declare Scope prog_scope.
Delimit Scope prog_scope with prog.
Bind Scope prog_scope with prog.

Notation "x <- p ;; k" := (Bind p (fun x => k))
  (at level 61, p at next level, right associativity) : prog_scope.
Notation "p ;; k" := (Bind p (fun _ => k))
  (at level 61, right associativity) : prog_scope.

Local Open Scope prog_scope.

(** [for x in l: body] without [break]. *)
Fixpoint for_ {A : Type} (l : list A) (body : A -> prog unit) : prog unit :=
  match l with
  | [] => Ret tt
  | x :: rest => body x ;; for_ rest body
  end.

(** [l[i]] for a non-negative [i]. *)
Definition getitem {A : Type} (l : list A) (i : nat) : prog A :=
  match nth_error l i with
  | Some x => Ret x
  | None => Raise IndexError
  end.

(** [not l] for a sequence [l]. *)
Definition not_ {A : Type} (l : list A) : bool :=
  match l with
  | [] => true
  | _ :: _ => false
  end.

(** The newline that the f-strings starting with [\n] begin with. *)
Definition nl : string := String (ascii_of_nat 10) EmptyString.

(** ** The script *)

(** Every path of the two routines returns [None]; the model returns which
    path it was: a [return] statement in the middle of the body, or the end of
    the body. *)
Inductive path : Type :=
| early_return
| end_of_body.

(** [demo_basic_usage()].  The variable [result] is assigned twice, as in the
    source. *)
Definition demo_basic_usage : prog path :=
  Print "=== Available Sessions ===" ;;
  sessions <- Call ListSessions ;;
  if not_ sessions then
    Print "No sessions found. Create one with: tmux new-session -d -s mysession" ;;
    Ret early_return
  else
    for_ sessions (fun s => Print ("  - " ++ s)) ;;
    session <- getitem sessions 0 ;;
    Print (nl ++ "=== Connecting to '" ++ session ++ "' ===") ;;
    ctrl <- Call (Init session) ;;
    found <- Call (SessionExists ctrl) ;;
    if negb found then
      Print ("Session '" ++ session ++ "' not found!") ;;
      Ret early_return
    else
      Print (nl ++ "=== Pane Info ===") ;;
      info <- Call (GetPaneInfo ctrl) ;;
      for_ info (fun kv => Print ("  " ++ fst kv ++ ": " ++ snd kv)) ;;
      Print (nl ++ "=== Execute 'pwd' ===") ;;
      result <- Call (ExecuteAndCapture ctrl "pwd" 0.3%float) ;;
      Print ("Output: " ++ output result) ;;
      Print (nl ++ "=== Execute 'ls -la' ===") ;;
      result <- Call (ExecuteAndCapture ctrl "ls -la" 0.5%float) ;;
      Print ("Output:" ++ nl ++ output result) ;;
      Print (nl ++ "=== Current Pane Content (last 10 lines) ===") ;;
      content <- Call (CapturePane ctrl (-10)%Z) ;;
      Print content ;;
      Ret end_of_body.

(** The list [commands] of [demo_interactive_control]. *)
Definition commands : list string :=
  [ "echo 'Starting task...'";
    "date";
    "hostname";
    "echo 'Task complete!'" ].

(** [demo_interactive_control()]; [first] is [sessions[0]]. *)
Definition demo_interactive_control : prog path :=
  sessions <- Call ListSessions ;;
  if not_ sessions then
    Print "No sessions available" ;;
    Ret early_return
  else
    first <- getitem sessions 0 ;;
    ctrl <- Call (Init first) ;;
    for_ commands (fun cmd =>
      Print ("Sending: " ++ cmd) ;;
      Call (SendCommand ctrl cmd) ;;
      Sleep 0.2%float) ;;
    Ret end_of_body.

(** The [__main__] block, on [sys.argv].  [and] evaluates its right operand
    only when the left one holds. *)
Definition main (argv : list string) : prog unit :=
  interactive <-
    (if (1 <? List.length argv)%nat then
       arg <- getitem argv 1 ;; Ret (arg =? "--interactive")%string
     else Ret false) ;;
  if (interactive : bool) then demo_interactive_control ;; Ret tt
  else demo_basic_usage ;; Ret tt.

(** ** Running a program *)

(** The world outside the script has some state [W].  A controller answers
    each call by a value or an exception and may change the world; so may
    printing (the terminal can be the pane under control) and the passing of
    time. *)
Definition answer (W A : Type) : Type := W -> W * outcome A.

Record TmuxController (W : Type) : Type := {
  list_sessions : answer W (list string);
  init : string -> answer W Ctrl;
  session_exists : Ctrl -> answer W bool;
  get_pane_info : Ctrl -> answer W (list (string * string));
  execute_and_capture : Ctrl -> string -> float -> answer W CommandResult;
  capture_pane : Ctrl -> Z -> answer W string;
  send_command : Ctrl -> string -> answer W unit
}.

Record Host (W : Type) : Type := {
  tmux : TmuxController W;
  on_print : string -> W -> W;
  on_sleep : float -> W -> W
}.

Definition perform (W : Type) (c : TmuxController W) (o : op) : answer W (ret o) :=
  match o with
  | ListSessions => list_sessions c
  | Init session => init c session
  | SessionExists self => session_exists c self
  | GetPaneInfo self => get_pane_info c self
  | ExecuteAndCapture self command wait_time =>
      execute_and_capture c self command wait_time
  | CapturePane self start_line => capture_pane c self start_line
  | SendCommand self command => send_command c self command
  end.

(** The values a call can return, in one type, for the trace. *)
Inductive value : Type :=
| VNone
| VBool (b : bool)
| VStr (s : string)
| VSeq (l : list string)
| VMap (m : list (string * string))
| VResult (r : CommandResult)
| VObj (c : Ctrl).

Definition to_value (o : op) : ret o -> value :=
  match o with
  | ListSessions => VSeq
  | Init _ => VObj
  | SessionExists _ => VBool
  | GetPaneInfo _ => VMap
  | ExecuteAndCapture _ _ _ => VResult
  | CapturePane _ _ => VStr
  | SendCommand _ _ => fun _ => VNone
  end.

Definition outcome_map (A B : Type) (f : A -> B) (r : outcome A) : outcome B :=
  match r with
  | Ok a => Ok (f a)
  | Err e => Err e
  end.

Inductive event : Type :=
| Printed (line : string)
| Slept (secs : float)
| Called (o : op) (r : outcome value).

Definition trace : Type := list event.

Fixpoint run (W : Type) (h : Host W) (R : Type) (p : prog R) (w : W)
  : trace * W * outcome R :=
  match p with
  | Ret r => ([], w, Ok r)
  | Raise e => ([], w, Err e)
  | Print line => ([Printed line], on_print h line w, Ok tt)
  | Sleep secs => ([Slept secs], on_sleep h secs w, Ok tt)
  | Call o =>
      let (w', r) := perform (tmux h) o w in
      ([Called o (outcome_map (to_value o) r)], w', r)
  | Bind p k =>
      match run h p w with
      | (t, w', Ok a) =>
          match run h (k a) w' with
          | (t', w'', r) => (t ++ t', w'', r)
          end
      | (t, w', Err e) => (t, w', Err e)
      end
  | Try body handler =>
      match run h body w with
      | (t, w', Ok r) => (t, w', Ok r)
      | (t, w', Err e) =>
          match run h (handler e) w' with
          | (t', w'', r) => (t ++ t', w'', r)
          end
      end
  end.

Definition events (W R : Type) (x : trace * W * outcome R) : trace := fst (fst x).
Definition ending (W R : Type) (x : trace * W * outcome R) : outcome R := snd x.

(** ** Reading a trace *)

(** The controller calls, in order. *)
Fixpoint calls (t : trace) : list op :=
  match t with
  | [] => []
  | Called o _ :: t' => o :: calls t'
  | _ :: t' => calls t'
  end.

(** What the calls returned or raised, in order. *)
Fixpoint replies (t : trace) : list (outcome value) :=
  match t with
  | [] => []
  | Called _ r :: t' => r :: replies t'
  | _ :: t' => replies t'
  end.

(** The lines printed, in order. *)
Fixpoint printed (t : trace) : list string :=
  match t with
  | [] => []
  | Printed line :: t' => line :: printed t'
  | _ :: t' => printed t'
  end.

(** The pauses, in order. *)
Fixpoint sleeps (t : trace) : list float :=
  match t with
  | [] => []
  | Slept secs :: t' => secs :: sleeps t'
  | _ :: t' => sleeps t'
  end.

(** The session names instances were built from. *)
Fixpoint connections (l : list op) : list string :=
  match l with
  | [] => []
  | Init session :: l' => session :: connections l'
  | _ :: l' => connections l'
  end.

(** The commands given to [send_command]. *)
Fixpoint sent (l : list op) : list string :=
  match l with
  | [] => []
  | SendCommand _ command :: l' => command :: sent l'
  | _ :: l' => sent l'
  end.

(** The commands and wait times given to [execute_and_capture]. *)
Fixpoint executed (l : list op) : list (string * float) :=
  match l with
  | [] => []
  | ExecuteAndCapture _ command wait_time :: l' => (command, wait_time) :: executed l'
  | _ :: l' => executed l'
  end.

Definition is_session_exists (o : op) : bool :=
  match o with
  | SessionExists _ => true
  | _ => false
  end.

(** The calls the interactive routine is left with if it reads nothing back
    from the pane. *)
Definition is_setup_or_send (o : op) : bool :=
  match o with
  | ListSessions | Init _ | SendCommand _ _ => true
  | _ => false
  end.

(** Every [send_command] that returned is followed at once by a pause of
    0.2 seconds. *)
Fixpoint pause_follows_send (t : trace) : Prop :=
  match t with
  | [] => True
  | Called (SendCommand _ _) (Ok _) :: t' =>
      (exists t'', t' = Slept 0.2%float :: t'') /\ pause_follows_send t'
  | _ :: t' => pause_follows_send t'
  end.

(** The exceptions the calls raised, in order. *)
Fixpoint failures (t : trace) : list exn :=
  match t with
  | [] => []
  | Called _ (Err e) :: t' => e :: failures t'
  | _ :: t' => failures t'
  end.

(** The [send_command] calls that returned. *)
Fixpoint returned_sends (t : trace) : nat :=
  match t with
  | [] => 0
  | Called (SendCommand _ _) (Ok _) :: t' => S (returned_sends t')
  | _ :: t' => returned_sends t'
  end.

(** The first command-line argument: [sys.argv] starts with the script's
    name, the arguments follow. *)
Definition first_argument (argv : list string) : option string :=
  hd_error (tl argv).

(** A run of which the returned value is dropped, as [__main__] does with
    what the routine it calls returns. *)
Definition forget (W R : Type) (x : trace * W * outcome R) : trace * W * outcome unit :=
  match x with
  | (t, w, r) => (t, w, outcome_map (fun _ => tt) r)
  end.

(** [runs_to h p w Q]: whatever [p] does from world [w] against [h], the
    trace, the final world and the ending satisfy [Q]. *)
Definition runs_to (W : Type) (h : Host W) (R : Type) (p : prog R) (w : W)
  (Q : trace -> W -> outcome R -> Prop) : Prop :=
  forall t w' r, run h p w = (t, w', r) -> Q t w' r.

(** The empty session list as the only reason for a routine to return early:
    each routine, when it returns early, has seen [list_sessions] return an
    empty sequence. *)
Definition only_empty_list_returns_early (W : Type) (h : Host W) (w : W) : Prop :=
  (ending (run h demo_basic_usage w) = Ok early_return ->
   In (Called ListSessions (Ok (VSeq []))) (events (run h demo_basic_usage w)))
  /\
  (ending (run h demo_interactive_control w) = Ok early_return ->
   In (Called ListSessions (Ok (VSeq [])))
      (events (run h demo_interactive_control w))).

(** One command of [demo_interactive_control] going through: announced,
    sent, and followed by the pause. *)
Definition round_ (c : Ctrl) (cmd : string) : trace :=
  [ Printed ("Sending: " ++ cmd);
    Called (SendCommand c cmd) (Ok VNone);
    Slept 0.2%float ].

Definition rounds (c : Ctrl) (cmds : list string) : trace :=
  flat_map (round_ c) cmds.

(** The controller calls of [demo_basic_usage], in the order of its body, on
    the session name [s] and the instance [c]. *)
Definition seven_calls (s : string) (c : Ctrl) : list op :=
  [ ListSessions;
    Init s;
    SessionExists c;
    GetPaneInfo c;
    ExecuteAndCapture c "pwd" 0.3%float;
    ExecuteAndCapture c "ls -la" 0.5%float;
    CapturePane c (-10)%Z ].

(** The seven calls in every run of [demo_basic_usage] that takes no early
    return. *)
Definition seven_calls_without_early_return (W : Type) (h : Host W) (w : W) : Prop :=
  ending (run h demo_basic_usage w) <> Ok early_return ->
  exists s c,
    calls (events (run h demo_basic_usage w)) =
      [ ListSessions;
        Init s;
        SessionExists c;
        GetPaneInfo c;
        ExecuteAndCapture c "pwd" 0.3%float;
        ExecuteAndCapture c "ls -la" 0.5%float;
        CapturePane c (-10)%Z ].

(** The four commands in every run of [demo_interactive_control] in which
    [list_sessions] returns a non-empty sequence. *)
Definition four_sends_when_listed (W : Type) (h : Host W) (w : W) : Prop :=
  forall s rest,
    In (Called ListSessions (Ok (VSeq (s :: rest))))
       (events (run h demo_interactive_control w)) ->
    sent (calls (events (run h demo_interactive_control w))) =
      [ "echo 'Starting task...'"; "date"; "hostname"; "echo 'Task complete!'" ].

(** The instance a method is called on; the two calls made on the class
    itself have none. *)
Definition self_of (o : op) : option Ctrl :=
  match o with
  | ListSessions | Init _ => None
  | SessionExists self
  | GetPaneInfo self
  | ExecuteAndCapture self _ _
  | CapturePane self _
  | SendCommand self _ => Some self
  end.

(** The calls that read from or type into a pane. *)
Definition is_pane_op (o : op) : bool :=
  match o with
  | GetPaneInfo _ | ExecuteAndCapture _ _ _ | CapturePane _ _ | SendCommand _ _ => true
  | _ => false
  end.

(** A program in which no [try] occurs. *)
Inductive no_try : forall R : Type, prog R -> Prop :=
| no_try_Ret : forall (R : Type) (r : R), no_try (Ret r)
| no_try_Raise : forall (R : Type) (e : exn), no_try (@Raise R e)
| no_try_Print : forall line, no_try (Print line)
| no_try_Sleep : forall secs, no_try (Sleep secs)
| no_try_Call : forall o, no_try (Call o)
| no_try_Bind : forall (A R : Type) (p : prog A) (k : A -> prog R),
    no_try p -> (forall a, no_try (k a)) -> no_try (Bind p k).

End Model.

Arguments Err {X A} e.

(** ** A small controller to run the script against *)

(** Instances are the session name they were built from, the value of
    [execute_and_capture] is its output text, an exception is its message. *)
#[export] Instance plain : External := {|
  Ctrl := string;
  CommandResult := string;
  output := fun r => r;
  exn := string;
  IndexError := "IndexError"
|}.

(** A scenario fixes the sessions that exist, whether the session connected
    to is still there, and which controller call (counted from 0), if any,
    fails.  The world counts the controller calls made so far. *)
Record scenario : Type := {
  names : list string;
  alive : bool;
  fails_at : option nat
}.

Definition reply (sc : scenario) (A : Type) (a : A) : answer nat A :=
  fun n =>
    (S n,
     match fails_at sc with
     | Some k => if Nat.eqb k n then Err "TmuxError" else Ok a
     | None => Ok a
     end).

Definition scripted (sc : scenario) : TmuxController nat := {|
  list_sessions := reply sc (names sc);
  init := fun session => reply sc session;
  session_exists := fun _ => reply sc (alive sc);
  get_pane_info := fun _ => reply sc [("pane_width", "80"); ("pane_height", "24")];
  execute_and_capture := fun _ command _ => reply sc ("$ " ++ command)%string;
  capture_pane := fun _ _ => reply sc "$";
  send_command := fun _ _ => reply sc tt
|}.

Definition scripted_host (sc : scenario) : Host nat := {|
  tmux := scripted sc;
  on_print := fun _ n => n;
  on_sleep := fun _ n => n
|}.

(** No session at all. *)
Definition nobody : scenario :=
  {| names := []; alive := false; fails_at := None |}.

(** Two sessions, the first of which is there. *)
Definition two_sessions : scenario :=
  {| names := ["main"; "work"]; alive := true; fails_at := None |}.

(** One session is listed, and it is gone when asked for. *)
Definition gone : scenario :=
  {| names := ["main"]; alive := false; fails_at := None |}.

(** One session; the controller call number [k] raises. *)
Definition breaks_at (k : nat) : scenario :=
  {| names := ["main"]; alive := true; fails_at := Some k |}.

Definition script_name : string := "tmux_example.py".

(** * Properties *)

Section Runs.

Context {X : External} {W : Type} (h : Host W).

(** ** A weakest-precondition reading of [run] *)

Lemma wp_Ret (R : Type) (x : R) w (Q : trace -> W -> outcome R -> Prop) :
  Q [] w (Ok x) -> runs_to h (Ret x) w Q.
Proof. intros HQ t w' r E. cbn in E. injection E as <- <- <-. exact HQ. Qed.

Lemma wp_Raise (R : Type) e w (Q : trace -> W -> outcome R -> Prop) :
  Q [] w (Err e) -> runs_to h (Raise e) w Q.
Proof. intros HQ t w' r E. cbn in E. injection E as <- <- <-. exact HQ. Qed.

Lemma wp_Print line w (Q : trace -> W -> outcome unit -> Prop) :
  Q [Printed line] (on_print h line w) (Ok tt) -> runs_to h (Print line) w Q.
Proof. intros HQ t w' r E. cbn in E. injection E as <- <- <-. exact HQ. Qed.

Lemma wp_Sleep secs w (Q : trace -> W -> outcome unit -> Prop) :
  Q [Slept secs] (on_sleep h secs w) (Ok tt) -> runs_to h (Sleep secs) w Q.
Proof. intros HQ t w' r E. cbn in E. injection E as <- <- <-. exact HQ. Qed.

(** A call may change the world in any way and answer anything. *)
Lemma wp_Call o w (Q : trace -> W -> outcome (ret o) -> Prop) :
  (forall w' r, Q [Called o (outcome_map (to_value o) r)] w' r) ->
  runs_to h (Call o) w Q.
Proof.
  intros HQ t w' r E. cbn [run] in E.
  destruct (perform (tmux h) o w) as [w1 r1].
  injection E as <- <- <-. apply HQ.
Qed.

Lemma wp_Bind (A R : Type) (p : prog A) (k : A -> prog R) w
  (Q : trace -> W -> outcome R -> Prop) :
  runs_to h p w (fun t w' r =>
    match r with
    | Ok a => runs_to h (k a) w' (fun t' w'' r' => Q (t ++ t') w'' r')
    | Err e => Q t w' (Err e)
    end) ->
  runs_to h (Bind p k) w Q.
Proof.
  intros Hp t w' r E. cbn [run] in E.
  destruct (run h p w) as [[t1 w1] [a|e]] eqn:E1 in E.
  - destruct (run h (k a) w1) as [[t2 w2] r2] eqn:E2.
    injection E as <- <- <-.
    exact (Hp _ _ _ E1 _ _ _ E2).
  - injection E as <- <- <-. exact (Hp _ _ _ E1).
Qed.

(** A loop whose body only prints. *)
Lemma wp_for_print (A : Type) (f : A -> string) (l : list A) w
  (Q : trace -> W -> outcome unit -> Prop) :
  Q (map (fun x => Printed (f x)) l)
    (fold_left (fun w x => on_print h (f x) w) l w) (Ok tt) ->
  runs_to h (for_ l (fun x => Print (f x))) w Q.
Proof.
  revert w Q. induction l as [|x l IH]; intros w Q HQ; cbn [for_].
  - apply wp_Ret. exact HQ.
  - apply wp_Bind, wp_Print, IH. exact HQ.
Qed.

(** ** Traces of printed lines *)

Lemma calls_app (t u : trace) : calls (t ++ u) = calls t ++ calls u.
Proof. induction t as [|[] t IH]; cbn; congruence. Qed.

Lemma replies_app (t u : trace) : replies (t ++ u) = replies t ++ replies u.
Proof. induction t as [|[] t IH]; cbn; congruence. Qed.

Lemma sleeps_app (t u : trace) : sleeps (t ++ u) = sleeps t ++ sleeps u.
Proof. induction t as [|[] t IH]; cbn; congruence. Qed.

Lemma printed_app (t u : trace) : printed (t ++ u) = printed t ++ printed u.
Proof. induction t as [|[] t IH]; cbn; congruence. Qed.

Lemma calls_lines (A : Type) (f : A -> string) (l : list A) :
  calls (map (fun x => Printed (f x)) l) = [].
Proof. induction l; cbn; auto. Qed.

Lemma sleeps_lines (A : Type) (f : A -> string) (l : list A) :
  sleeps (map (fun x => Printed (f x)) l) = [].
Proof. induction l; cbn; auto. Qed.

Lemma printed_lines (A : Type) (f : A -> string) (l : list A) :
  printed (map (fun x => Printed (f x)) l) = map f l.
Proof. induction l; cbn; congruence. Qed.

Lemma no_call_in_lines (A : Type) (f : A -> string) (l : list A) o r :
  ~ In (Called o r) (map (fun x => Printed (f x)) l).
Proof. induction l; cbn; intuition discriminate. Qed.

End Runs.

Create Rewrite HintDb trace.
#[local] Hint Rewrite @calls_app @sleeps_app @printed_app @replies_app
  @calls_lines @sleeps_lines @printed_lines : trace.

(** Symbolic execution of a program along the rules above: one goal per
    path through the program. *)
Ltac wp_step :=
  lazymatch goal with
  | |- runs_to _ (Bind _ _) _ _ => apply wp_Bind
  | |- runs_to _ (Print _) _ _ => apply wp_Print
  | |- runs_to _ (Sleep _) _ _ => apply wp_Sleep
  | |- runs_to _ (Ret _) _ _ => apply wp_Ret
  | |- runs_to _ (Raise _) _ _ => apply wp_Raise
  | |- runs_to _ (for_ _ (fun x => Print _)) _ _ => apply wp_for_print
  | |- runs_to _ (for_ (_ :: _) _) _ _ => cbn [for_]
  | |- runs_to _ (for_ [] _) _ _ => cbn [for_]
  | |- runs_to _ (for_ commands _) _ _ => unfold commands
  | |- runs_to _ (Call _) _ _ =>
      let r := fresh "r" in
      apply wp_Call; intros ? r; destruct r; cbn [outcome_map to_value]
  | |- runs_to _ (getitem _ _) _ _ => cbn [getitem nth_error]
  | |- runs_to _ (if not_ ?l then _ else _) _ _ => destruct l; cbn [not_]
  | |- runs_to _ (if negb ?b then _ else _) _ _ => destruct b; cbn [negb]
  | |- runs_to _ (if ?b then _ else _) _ _ => destruct b eqn:?
  end.

Ltac wp := repeat (wp_step; cbn beta iota); cbn [app].

(** Turns a goal about [run h p w] into a [runs_to] goal. *)
Ltac wp_start :=
  match goal with
  | |- context [run ?h0 ?p ?w] =>
      let t := fresh "t" in let w' := fresh "w" in let r := fresh "r" in
      let E := fresh "E" in
      destruct (run h0 p w) as [[t w'] r] eqn:E;
      cbn [events ending fst snd];
      revert t w' r E;
      lazymatch goal with
      | |- forall t w' r, run _ _ _ = _ -> @?Q t w' r => change (runs_to h0 p w Q)
      end
  end.

Ltac trace_simpl :=
  repeat (progress
    (cbn [calls replies printed sleeps connections sent executed failures app];
     autorewrite with trace)).

(** Case analysis on a hypothesis [In e t] for a trace [t] given event by
    event; what remains are the events that can be [e]. *)
Ltac in_trace H :=
  repeat first
    [ progress cbn [In] in H
    | rewrite in_app_iff in H
    | destruct H as [H|H]
    | discriminate H
    | contradiction
    | exfalso; exact (no_call_in_lines _ _ _ _ H) ].

(** ** Programs without [try] *)

Section Propagation.

Context {X : External} {W : Type} (h : Host W).

Lemma no_try_for (A : Type) (l : list A) (body : A -> prog unit) :
  (forall x, no_try (body x)) -> no_try (for_ l body).
Proof.
  intros Hb. induction l as [|x l IH]; cbn [for_]; constructor; auto.
Qed.

Lemma no_try_getitem (A : Type) (l : list A) (i : nat) : no_try (getitem l i).
Proof. unfold getitem. destruct (nth_error l i); constructor. Qed.

(** In a program without [try], a call that raises ends the run: it is the
    last event, and the run's ending is the exception it raised. *)
Lemma no_try_propagates (R : Type) (p : prog R) :
  no_try p ->
  forall w o e,
    In (Called o (Err e)) (events (run h p w)) ->
    ending (run h p w) = Err e /\
    exists before, events (run h p w) = before ++ [Called o (Err e)].
Proof.
  induction 1 as [R r|R e0|line|secs|o0|A R p k Hp IHp Hk IHk]; intros w o e.
  1-4: cbn; intuition discriminate.
  - cbn [run]. destruct (perform (tmux h) o0 w) as [w' [a|e0]]; cbn.
    + intros [E|[]]. discriminate.
    + intros [E|[]]. injection E as -> ->. split; [reflexivity|].
      exists []. reflexivity.
  - specialize (IHp w o e). cbn [run].
    destruct (run h p w) as [[t w'] [a|e0]]; cbn [events ending fst snd] in *.
    + specialize (IHk a w' o e).
      destruct (run h (k a) w') as [[t' w''] r']; cbn [events ending fst snd] in *.
      intros Hin. apply in_app_or in Hin. destruct Hin as [Hin|Hin].
      * destruct (IHp Hin) as [E _]. discriminate.
      * destruct (IHk Hin) as [E [before Ht]]. split; [exact E|].
        exists (t ++ before). rewrite Ht, app_assoc. reflexivity.
    + intros Hin. destruct (IHp Hin) as [E Ht]. injection E as ->. auto.
Qed.

End Propagation.

Ltac no_try_tac :=
  repeat (first [ apply no_try_for | apply no_try_getitem | constructor
                | match goal with
                  | |- no_try (if ?b then _ else _) => destruct b
                  end ];
          intros).

Lemma no_try_demo_basic_usage (X : External) : no_try demo_basic_usage.
Proof. unfold demo_basic_usage. no_try_tac. Qed.

Lemma no_try_demo_interactive_control (X : External) :
  no_try demo_interactive_control.
Proof. unfold demo_interactive_control. no_try_tac. Qed.

Lemma no_try_main (X : External) (argv : list string) : no_try (main argv).
Proof.
  unfold main, demo_interactive_control, demo_basic_usage. no_try_tac.
Qed.

(** ** More on traces of printed lines *)

Lemma replies_lines (X : External) (A : Type) (f : A -> string) (l : list A) :
  replies (map (fun x => Printed (f x)) l) = [].
Proof. induction l; cbn; auto. Qed.

Lemma failures_app (X : External) (t u : trace) :
  failures (t ++ u) = failures t ++ failures u.
Proof.
  induction t as [|[line|secs|o [v|e]] t IH]; cbn; congruence.
Qed.

Lemma failures_lines (X : External) (A : Type) (f : A -> string) (l : list A) :
  failures (map (fun x => Printed (f x)) l) = [].
Proof. induction l; cbn; auto. Qed.

#[local] Hint Rewrite @replies_lines @failures_app @failures_lines : trace.

(** Fills in the witnesses of a statement that holds by computation; a
    number is looked for among the first few. *)
Ltac fill :=
  lazymatch goal with
  | |- exists n : nat, _ =>
      first [ exists 0; fill | exists 1; fill | exists 2; fill
            | exists 3; fill | exists 4; fill ]
  | |- exists _, _ => eexists; fill
  | |- _ /\ _ => split; fill
  | |- _ => reflexivity
  end.

(** Proves the one case of a case distinction that [fill] proves. *)
Ltac pick := first [ solve [fill] | left; pick | right; pick ].

(** * The claims *)

Section Claims.

Context {X : External} {W : Type} (h : Host W).

(** C1.  In a run in which [list_sessions] returns an empty sequence, each
    routine prints its message about there being no sessions and returns at
    once: the trace is the one below, with [list_sessions] as its only
    controller call, so no instance is built and no method is called. *)
Theorem no_sessions_no_action (w : W) :
  (In (Called ListSessions (Ok (VSeq []))) (events (run h demo_basic_usage w)) ->
   events (run h demo_basic_usage w) =
     [ Printed "=== Available Sessions ===";
       Called ListSessions (Ok (VSeq []));
       Printed "No sessions found. Create one with: tmux new-session -d -s mysession" ] /\
   calls (events (run h demo_basic_usage w)) = [ListSessions] /\
   ending (run h demo_basic_usage w) = Ok early_return)
  /\
  (In (Called ListSessions (Ok (VSeq []))) (events (run h demo_interactive_control w)) ->
   events (run h demo_interactive_control w) =
     [ Called ListSessions (Ok (VSeq []));
       Printed "No sessions available" ] /\
   calls (events (run h demo_interactive_control w)) = [ListSessions] /\
   ending (run h demo_interactive_control w) = Ok early_return).
Proof.
  split.
  - wp_start. unfold demo_basic_usage. wp.
    all: intros Hin; in_trace Hin; auto.
  - wp_start. unfold demo_interactive_control. wp.
    all: intros Hin; in_trace Hin; auto.
Qed.

(** C2.  In a run in which [list_sessions] returns a non-empty sequence, each
    routine builds exactly one [TmuxController], from the first element of
    that sequence. *)
Theorem connects_to_first_session (w : W) (s : string) (rest : list string) :
  (In (Called ListSessions (Ok (VSeq (s :: rest))))
      (events (run h demo_basic_usage w)) ->
   connections (calls (events (run h demo_basic_usage w))) = [s])
  /\
  (In (Called ListSessions (Ok (VSeq (s :: rest))))
      (events (run h demo_interactive_control w)) ->
   connections (calls (events (run h demo_interactive_control w))) = [s]).
Proof.
  split.
  - wp_start. unfold demo_basic_usage. wp.
    all: intros Hin; in_trace Hin; injection Hin as -> ->; trace_simpl; reflexivity.
  - wp_start. unfold demo_interactive_control. wp.
    all: intros Hin; in_trace Hin; injection Hin as -> ->; trace_simpl; reflexivity.
Qed.

Lemma basic_usage_starts_printing (w : W) :
  hd_error (events (run h demo_basic_usage w)) =
  Some (Printed "=== Available Sessions ===").
Proof.
  wp_start. unfold demo_basic_usage. apply wp_Bind, wp_Print. cbn beta iota.
  intros t w' r _. reflexivity.
Qed.

Lemma interactive_starts_listing (w : W) :
  exists r, hd_error (events (run h demo_interactive_control w)) =
            Some (Called ListSessions r).
Proof.
  wp_start. unfold demo_interactive_control. apply wp_Bind, wp_Call.
  intros w' r. destruct r; cbn beta iota; [intros t' w'' r' _|];
    eexists; reflexivity.
Qed.

Lemma demos_differ (w : W) :
  events (run h demo_interactive_control w) <> events (run h demo_basic_usage w).
Proof.
  intros E. pose proof (basic_usage_starts_printing w) as Hb.
  destruct (interactive_starts_listing w) as [r Hi].
  rewrite E in Hi. congruence.
Qed.

Lemma events_forget (R : Type) (x : trace * W * outcome R) :
  events (forget x) = events x.
Proof. destruct x as [[t w] r]. reflexivity. Qed.

Lemma run_discarding (R : Type) (p : prog R) (w : W) :
  run h (Bind p (fun _ => Ret tt)) w = forget (run h p w).
Proof.
  cbn [run]. destruct (run h p w) as [[t w'] [a|e]]; cbn.
  - rewrite app_nil_r. reflexivity.
  - reflexivity.
Qed.

Lemma run_Ret_Bind (A R : Type) (x : A) (k : A -> prog R) (w : W) :
  run h (Bind (Ret x) k) w = run h (k x) w.
Proof. cbn [run app]. destruct (run h (k x) w) as [[t w'] r]. reflexivity. Qed.

(** C3.  With [--interactive] as first argument the script runs
    [demo_interactive_control] and nothing of [demo_basic_usage]; with no
    argument or any other first argument it runs [demo_basic_usage] and nothing
    of [demo_interactive_control].  The two routines never have the same
    events, so running one is not running the other. *)
Theorem dispatch_on_first_argument (argv : list string) (w : W) :
  (first_argument argv = Some "--interactive" ->
   run h (main argv) w = forget (run h demo_interactive_control w) /\
   events (run h (main argv) w) <> events (run h demo_basic_usage w))
  /\
  (first_argument argv <> Some "--interactive" ->
   run h (main argv) w = forget (run h demo_basic_usage w) /\
   events (run h (main argv) w) <> events (run h demo_interactive_control w)).
Proof.
  assert (Hmain : run h (main argv) w =
                  forget (run h (match first_argument argv with
                                 | Some arg =>
                                     if (arg =? "--interactive")%string
                                     then demo_interactive_control
                                     else demo_basic_usage
                                 | None => demo_basic_usage
                                 end) w)).
  { unfold main, first_argument.
    destruct argv as [|script [|arg rest]]; cbn [List.length Nat.ltb Nat.leb tl hd_error].
    - rewrite run_Ret_Bind, run_discarding. reflexivity.
    - rewrite run_Ret_Bind, run_discarding. reflexivity.
    - cbn [getitem nth_error].
      assert (E : forall (k : bool -> prog unit),
                 run h (Bind (Bind (Ret arg)
                          (fun a => Ret (a =? "--interactive")%string)) k) w =
                 run h (k (arg =? "--interactive")%string) w).
      { intros k. cbn [run app].
        destruct (run h (k (arg =? "--interactive")%string) w) as [[t w'] r].
        reflexivity. }
      rewrite E.
      destruct (arg =? "--interactive")%string; apply run_discarding. }
  split; intros Harg.
  - rewrite Hmain, Harg. cbn. split; [reflexivity|].
    rewrite events_forget. apply demos_differ.
  - rewrite Hmain. destruct (first_argument argv) as [arg|].
    + destruct (String.eqb_spec arg "--interactive") as [E|Hne]; [congruence|].
      split; [reflexivity|]. rewrite events_forget.
      intros E. symmetry in E. exact (demos_differ _ E).
    + split; [reflexivity|]. rewrite events_forget.
      intros E. symmetry in E. exact (demos_differ _ E).
Qed.

(** Proves a goal [In e t] for a trace [t] given event by event. *)
Ltac in_solve :=
  repeat (cbn [In]; rewrite ?in_app_iff); auto 30.

(** C4, as the code has it.  A routine returns early exactly when
    [list_sessions] returned an empty sequence or, in [demo_basic_usage]
    only, when [session_exists] returned [False]; no other check does. *)
Theorem early_return_conditions (w : W) :
  (ending (run h demo_basic_usage w) = Ok early_return <->
   In (Called ListSessions (Ok (VSeq []))) (events (run h demo_basic_usage w)) \/
   exists c, In (Called (SessionExists c) (Ok (VBool false)))
                (events (run h demo_basic_usage w)))
  /\
  (ending (run h demo_interactive_control w) = Ok early_return <->
   In (Called ListSessions (Ok (VSeq [])))
      (events (run h demo_interactive_control w))).
Proof.
  split.
  - wp_start. unfold demo_basic_usage. wp.
    all: split;
      [ intros E; try discriminate E
      | intros [Hin|[c Hin]]; in_trace Hin; try reflexivity ].
    + left. in_solve.
    + right. eexists. in_solve.
  - wp_start. unfold demo_interactive_control. wp.
    all: split; [ intros E; try discriminate E | intros Hin; in_trace Hin; try reflexivity ].
    in_solve.
Qed.

(** C5.  No routine, nor the dispatch, contains a [try]; so whenever a
    controller call raises, that call is the last event of the run (nothing is
    retried, printed or called after it) and the run ends with the very
    exception the call raised. *)
Theorem controller_failure_propagates (argv : list string) (w : W)
  (o : op) (e : exn) :
  (no_try demo_basic_usage /\
   (In (Called o (Err e)) (events (run h demo_basic_usage w)) ->
    ending (run h demo_basic_usage w) = Err e /\
    exists before,
      events (run h demo_basic_usage w) = before ++ [Called o (Err e)]))
  /\
  (no_try demo_interactive_control /\
   (In (Called o (Err e)) (events (run h demo_interactive_control w)) ->
    ending (run h demo_interactive_control w) = Err e /\
    exists before,
      events (run h demo_interactive_control w) = before ++ [Called o (Err e)]))
  /\
  (no_try (main argv) /\
   (In (Called o (Err e)) (events (run h (main argv) w)) ->
    ending (run h (main argv) w) = Err e /\
    exists before,
      events (run h (main argv) w) = before ++ [Called o (Err e)])).
Proof.
  assert (P : forall (R : Type) (p : prog R),
             no_try p ->
             no_try p /\
             (In (Called o (Err e)) (events (run h p w)) ->
              ending (run h p w) = Err e /\
              exists before, events (run h p w) = before ++ [Called o (Err e)])).
  { intros R p Hp. split; [exact Hp|]. apply (no_try_propagates h Hp). }
  split; [|split]; apply P.
  - apply no_try_demo_basic_usage.
  - apply no_try_demo_interactive_control.
  - apply no_try_main.
Qed.

Ltac prefix_of_length :=
  first [ exists 0; reflexivity | exists 1; reflexivity | exists 2; reflexivity
        | exists 3; reflexivity | exists 4; reflexivity ].

(** C6.  The waits are constants of the script and nothing else is waited
    for.

    [demo_basic_usage] never sleeps.  It gives [execute_and_capture] the wait
    time 0.3 with [pwd] and 0.5 with [ls -la], in this order and nothing
    else.  Its controller calls are always the first few of its seven calls,
    each made once: nothing is asked again or polled.  It stops before the
    seventh call only because a call raised, the list was empty, or the
    session was not found; otherwise it makes all seven.

    Every run of [demo_interactive_control] is one of five: [list_sessions]
    raised; the list was empty; the constructor raised; each of the four
    commands was announced, sent and followed at once by a pause of 0.2
    seconds; or the first few commands went through in that way and the next
    [send_command] raised.  So each [send_command] that returns is followed by
    the pause of 0.2 seconds, there is no other pause, and nothing is read
    back from the controller. *)
Theorem pauses_are_fixed (w : W) :
  ((exists n, executed (calls (events (run h demo_basic_usage w))) =
              firstn n [("pwd", 0.3%float); ("ls -la", 0.5%float)]) /\
   (ending (run h demo_basic_usage w) = Ok end_of_body ->
    executed (calls (events (run h demo_basic_usage w))) =
      [("pwd", 0.3%float); ("ls -la", 0.5%float)]) /\
   sleeps (events (run h demo_basic_usage w)) = [] /\
   (calls (events (run h demo_basic_usage w)) = [ListSessions] \/
    (exists s, calls (events (run h demo_basic_usage w)) = [ListSessions; Init s]) \/
    (exists s c n,
       calls (events (run h demo_basic_usage w)) = firstn (3 + n) (seven_calls s c))) /\
   ((exists e,
       last (replies (events (run h demo_basic_usage w))) (Ok VNone) = Err e /\
       ending (run h demo_basic_usage w) = Err e) \/
    (replies (events (run h demo_basic_usage w)) = [Ok (VSeq [])] /\
     ending (run h demo_basic_usage w) = Ok early_return) \/
    (exists s rest c,
       replies (events (run h demo_basic_usage w)) =
         [Ok (VSeq (s :: rest)); Ok (VObj c); Ok (VBool false)] /\
       ending (run h demo_basic_usage w) = Ok early_return) \/
    (exists s rest c info r1 r2 content,
       replies (events (run h demo_basic_usage w)) =
         [ Ok (VSeq (s :: rest)); Ok (VObj c); Ok (VBool true); Ok (VMap info);
           Ok (VResult r1); Ok (VResult r2); Ok (VStr content) ] /\
       calls (events (run h demo_basic_usage w)) = seven_calls s c /\
       ending (run h demo_basic_usage w) = Ok end_of_body)))
  /\
  (pause_follows_send (events (run h demo_interactive_control w)) /\
   sleeps (events (run h demo_interactive_control w)) =
     repeat 0.2%float (returned_sends (events (run h demo_interactive_control w))) /\
   forallb is_setup_or_send (calls (events (run h demo_interactive_control w))) = true /\
   ((exists e,
       events (run h demo_interactive_control w) = [Called ListSessions (Err e)]) \/
    events (run h demo_interactive_control w) =
      [Called ListSessions (Ok (VSeq [])); Printed "No sessions available"] \/
    (exists s rest e,
       events (run h demo_interactive_control w) =
         [Called ListSessions (Ok (VSeq (s :: rest))); Called (Init s) (Err e)]) \/
    (exists s rest c,
       events (run h demo_interactive_control w) =
         Called ListSessions (Ok (VSeq (s :: rest)))
         :: Called (Init s) (Ok (VObj c))
         :: rounds c commands) \/
    (exists s rest c n cmd e,
       nth_error commands n = Some cmd /\
       events (run h demo_interactive_control w) =
         Called ListSessions (Ok (VSeq (s :: rest)))
         :: Called (Init s) (Ok (VObj c))
         :: rounds c (firstn n commands)
         ++ [ Printed ("Sending: " ++ cmd);
              Called (SendCommand c cmd) (Err e) ]))).
Proof.
  split.
  - wp_start. unfold demo_basic_usage. wp.
    all: trace_simpl; split; [prefix_of_length|].
    all: split; [intros E; first [discriminate E | reflexivity]|].
    all: split; [reflexivity|].
    all: split; pick.
  - wp_start. unfold demo_interactive_control. wp.
    all: split; [cbn; repeat split; eauto|].
    all: split; [reflexivity|].
    all: split; [reflexivity|].
    all: pick.
Qed.

(** C7, as the code has it.  A run of [demo_basic_usage] in which no early
    return is taken and no controller call raises makes these controller
    calls, in this order and no others: [list_sessions], the constructor on
    the first session name, then on the instance it returned
    [session_exists], [get_pane_info], [execute_and_capture("pwd", 0.3)],
    [execute_and_capture("ls -la", 0.5)] and [capture_pane(start_line=-10)]. *)
Theorem basic_usage_call_order (w : W) :
  ending (run h demo_basic_usage w) <> Ok early_return ->
  failures (events (run h demo_basic_usage w)) = [] ->
  exists s rest c,
    In (Called ListSessions (Ok (VSeq (s :: rest))))
       (events (run h demo_basic_usage w)) /\
    In (Called (Init s) (Ok (VObj c))) (events (run h demo_basic_usage w)) /\
    calls (events (run h demo_basic_usage w)) =
      [ ListSessions;
        Init s;
        SessionExists c;
        GetPaneInfo c;
        ExecuteAndCapture c "pwd" 0.3%float;
        ExecuteAndCapture c "ls -la" 0.5%float;
        CapturePane c (-10)%Z ].
Proof.
  wp_start. unfold demo_basic_usage. wp.
  all: trace_simpl; intros Hne Hf; try discriminate Hf.
  all: try (contradiction Hne; reflexivity).
  do 3 eexists. split; [|split].
  - in_solve.
  - in_solve.
  - reflexivity.
Qed.

(** C8.  [demo_interactive_control] never calls [session_exists].  Once
    [list_sessions] has returned a non-empty sequence its next call builds the
    instance from the first name, and once that has returned the next call is
    the first [send_command]; in [demo_basic_usage] the call after the
    constructor is [session_exists]. *)
Theorem interactive_skips_session_check (w : W) (s : string)
  (rest : list string) (c : Ctrl) :
  existsb is_session_exists (calls (events (run h demo_interactive_control w))) = false
  /\
  (In (Called ListSessions (Ok (VSeq (s :: rest))))
      (events (run h demo_interactive_control w)) ->
   (exists more,
      calls (events (run h demo_interactive_control w)) =
        ListSessions :: Init s :: more) /\
   (In (Called (Init s) (Ok (VObj c))) (events (run h demo_interactive_control w)) ->
    exists more,
      calls (events (run h demo_interactive_control w)) =
        ListSessions :: Init s :: SendCommand c "echo 'Starting task...'" :: more))
  /\
  (In (Called ListSessions (Ok (VSeq (s :: rest))))
      (events (run h demo_basic_usage w)) ->
   In (Called (Init s) (Ok (VObj c))) (events (run h demo_basic_usage w)) ->
   exists more,
     calls (events (run h demo_basic_usage w)) =
       ListSessions :: Init s :: SessionExists c :: more).
Proof.
  split; [|split].
  - wp_start. unfold demo_interactive_control. wp.
    all: reflexivity.
  - wp_start. unfold demo_interactive_control. wp.
    all: intros Hin; in_trace Hin; injection Hin as -> ->.
    all: split; [cbn [calls]; eexists; reflexivity|].
    all: intros Hc; in_trace Hc; injection Hc as ->.
    all: cbn [calls]; eexists; reflexivity.
  - wp_start. unfold demo_basic_usage. wp.
    all: intros Hin; in_trace Hin; injection Hin as -> ->.
    all: intros Hc; in_trace Hc; injection Hc as ->.
    all: trace_simpl; eexists; reflexivity.
Qed.

(** C9, as the code has it.  In a run of [demo_interactive_control] in which
    [list_sessions] returns a non-empty sequence, the commands given to
    [send_command] are the four constants below, in this order, whatever the
    session names and whatever the controller returns: all four of them when
    no controller call raises, and the first few of them when a call raises
    and so ends the run. *)
Theorem interactive_sends_four_commands (w : W) (s : string) (rest : list string) :
  In (Called ListSessions (Ok (VSeq (s :: rest))))
     (events (run h demo_interactive_control w)) ->
  (failures (events (run h demo_interactive_control w)) = [] ->
   sent (calls (events (run h demo_interactive_control w))) =
     [ "echo 'Starting task...'"; "date"; "hostname"; "echo 'Task complete!'" ])
  /\
  (exists n,
     sent (calls (events (run h demo_interactive_control w))) =
       firstn n [ "echo 'Starting task...'"; "date"; "hostname";
                  "echo 'Task complete!'" ]).
Proof.
  wp_start. unfold demo_interactive_control. wp.
  all: intros Hin; in_trace Hin.
  all: split; [intros E; first [discriminate E | reflexivity] | prefix_of_length].
Qed.

End Claims.

(** * More on the two routines *)

(** Proves [In e t] for a trace [t] given event by event. *)
Ltac in_events :=
  repeat (cbn [In]; rewrite ?in_app_iff); auto 40.

Ltac prefix_up_to_seven :=
  first [ exists 0; reflexivity | exists 1; reflexivity | exists 2; reflexivity
        | exists 3; reflexivity | exists 4; reflexivity | exists 5; reflexivity
        | exists 6; reflexivity | exists 7; reflexivity ].

Section Routines.

Context {X : External} {W : Type} (h : Host W).

(** X1.  What a run of [demo_basic_usage] that reaches the end of the body
    has printed, from what the controller returned: the header, one line per
    session in the order of the list, the connection line with the first
    name, one line per entry of the pane info in its order, the output of
    the two commands and the captured content. *)
Theorem basic_usage_output (w : W) :
  ending (run h demo_basic_usage w) = Ok end_of_body ->
  exists session rest c info r1 r2 content,
    replies (events (run h demo_basic_usage w)) =
      [ Ok (VSeq (session :: rest)); Ok (VObj c); Ok (VBool true); Ok (VMap info);
        Ok (VResult r1); Ok (VResult r2); Ok (VStr content) ] /\
    printed (events (run h demo_basic_usage w)) =
      "=== Available Sessions ==="
      :: map (fun s => "  - " ++ s)%string (session :: rest)
      ++ [ (nl ++ "=== Connecting to '" ++ session ++ "' ===")%string;
           (nl ++ "=== Pane Info ===")%string ]
      ++ map (fun kv => "  " ++ fst kv ++ ": " ++ snd kv)%string info
      ++ [ (nl ++ "=== Execute 'pwd' ===")%string;
           ("Output: " ++ output r1)%string;
           (nl ++ "=== Execute 'ls -la' ===")%string;
           ("Output:" ++ nl ++ output r2)%string;
           (nl ++ "=== Current Pane Content (last 10 lines) ===")%string;
           content ].
Proof.
  wp_start. unfold demo_basic_usage. wp.
  all: intros E; try discriminate E.
  do 7 eexists. split.
  - trace_simpl. reflexivity.
  - trace_simpl. reflexivity.
Qed.

(** X2.  Once [list_sessions] has returned a non-empty sequence,
    [demo_basic_usage] prints the header, every session of the sequence and
    the connection line with the first name, before anything else and
    whatever happens later in the run. *)
Theorem sessions_listed_before_connecting (w : W) (s : string) (rest : list string) :
  In (Called ListSessions (Ok (VSeq (s :: rest)))) (events (run h demo_basic_usage w)) ->
  exists more,
    printed (events (run h demo_basic_usage w)) =
      "=== Available Sessions ==="
      :: map (fun s => "  - " ++ s)%string (s :: rest)
      ++ (nl ++ "=== Connecting to '" ++ s ++ "' ===")%string :: more.
Proof.
  wp_start. unfold demo_basic_usage. wp.
  all: intros Hin; in_trace Hin; injection Hin as -> ->.
  all: trace_simpl; eexists; reflexivity.
Qed.

(** X3.  When [session_exists] returns [False], [demo_basic_usage] says that
    the session was not found, naming it, and returns: the run is the one
    below, with three controller calls and nothing read from or typed into a
    pane. *)
Theorem missing_session_stops_basic_usage (w : W) (c : Ctrl) :
  In (Called (SessionExists c) (Ok (VBool false))) (events (run h demo_basic_usage w)) ->
  exists s rest,
    events (run h demo_basic_usage w) =
      Printed "=== Available Sessions ==="
      :: Called ListSessions (Ok (VSeq (s :: rest)))
      :: map (fun s => Printed ("  - " ++ s)) (s :: rest)
      ++ [ Printed (nl ++ "=== Connecting to '" ++ s ++ "' ===");
           Called (Init s) (Ok (VObj c));
           Called (SessionExists c) (Ok (VBool false));
           Printed ("Session '" ++ s ++ "' not found!") ] /\
    calls (events (run h demo_basic_usage w)) = [ListSessions; Init s; SessionExists c] /\
    existsb is_pane_op (calls (events (run h demo_basic_usage w))) = false /\
    ending (run h demo_basic_usage w) = Ok early_return.
Proof.
  wp_start. unfold demo_basic_usage. wp.
  all: intros Hin; in_trace Hin; injection Hin as ->.
  do 2 eexists. split; [reflexivity|]. trace_simpl. auto.
Qed.

(** X4.  In [demo_interactive_control] every command is announced before it
    is sent and nothing else is printed: unless the routine returned early,
    the lines printed are ["Sending: " ++ cmd] for the commands given to
    [send_command], also in a run that a raising call cut short. *)
Theorem every_send_is_announced (w : W) :
  ending (run h demo_interactive_control w) <> Ok early_return ->
  printed (events (run h demo_interactive_control w)) =
  map (fun cmd => "Sending: " ++ cmd)%string
      (sent (calls (events (run h demo_interactive_control w)))).
Proof.
  wp_start. unfold demo_interactive_control. wp.
  all: intros E; try reflexivity.
  contradiction E; reflexivity.
Qed.

(** X6.  The subscripts [sessions[0]] and [sys.argv[1]] are never out of
    range: behind their guards no [IndexError] is raised.  With [print] and
    [time.sleep] taken to return, as everywhere in this file, a run of a
    routine or of the dispatch that ends with an exception therefore ends
    with one that a controller call of the run raised. *)
Theorem subscripts_never_out_of_range (argv : list string) (w : W) (e : exn) :
  (ending (run h demo_basic_usage w) = Err e ->
   exists o, In (Called o (Err e)) (events (run h demo_basic_usage w)))
  /\
  (ending (run h demo_interactive_control w) = Err e ->
   exists o, In (Called o (Err e)) (events (run h demo_interactive_control w)))
  /\
  (ending (run h (main argv) w) = Err e ->
   exists o, In (Called o (Err e)) (events (run h (main argv) w))).
Proof.
  split; [|split].
  - wp_start. unfold demo_basic_usage. wp.
    all: intros E; try discriminate E; injection E as ->; eexists; in_events.
  - wp_start. unfold demo_interactive_control. wp.
    all: intros E; try discriminate E; injection E as ->; eexists; in_events.
  - wp_start. unfold main, demo_interactive_control, demo_basic_usage.
    destruct argv as [|script [|arg more]]; cbn [List.length Nat.ltb Nat.leb]; wp.
    all: intros E; try discriminate E; injection E as ->; eexists; in_events.
Qed.

(** X7.  Once the constructor has returned an instance, the controller calls
    of [demo_basic_usage] are the first few of its seven calls, in their
    order: a run that returns early or is cut short by an exception skips
    what is left, and never reorders or repeats a call. *)
Theorem basic_usage_calls_prefix (w : W) (s : string) (c : Ctrl) :
  In (Called (Init s) (Ok (VObj c))) (events (run h demo_basic_usage w)) ->
  exists n,
    calls (events (run h demo_basic_usage w)) =
    firstn n [ ListSessions;
               Init s;
               SessionExists c;
               GetPaneInfo c;
               ExecuteAndCapture c "pwd" 0.3%float;
               ExecuteAndCapture c "ls -la" 0.5%float;
               CapturePane c (-10)%Z ].
Proof.
  wp_start. unfold demo_basic_usage. wp.
  all: intros Hin; in_trace Hin; injection Hin as -> ->.
  all: trace_simpl; prefix_up_to_seven.
Qed.

(** X8.  The number of controller calls does not grow with the number of
    sessions or of pane attributes: [demo_basic_usage] makes at most seven
    calls and [demo_interactive_control] at most six, in every run. *)
Theorem calls_bounded (w : W) :
  List.length (calls (events (run h demo_basic_usage w))) <= 7 /\
  List.length (calls (events (run h demo_interactive_control w))) <= 6.
Proof.
  split.
  - wp_start. unfold demo_basic_usage. wp.
    all: trace_simpl; cbn [List.length]; repeat constructor.
  - wp_start. unfold demo_interactive_control. wp.
    all: trace_simpl; cbn [List.length]; repeat constructor.
Qed.

(** X9.  [demo_basic_usage] reads from a pane or types into it only after
    [session_exists] has returned [True] for the same instance. *)
Theorem pane_used_only_after_check (w : W) (o : op) :
  In o (calls (events (run h demo_basic_usage w))) ->
  is_pane_op o = true ->
  exists c,
    self_of o = Some c /\
    In (Called (SessionExists c) (Ok (VBool true))) (events (run h demo_basic_usage w)).
Proof.
  wp_start. unfold demo_basic_usage. wp.
  all: trace_simpl; intros Hin Hp; in_trace Hin; subst o; cbn in Hp;
    try discriminate Hp.
  all: eexists; split; [reflexivity|in_events].
Qed.

(** X10.  The dispatch looks at [sys.argv[1]] only: two argument vectors
    with the same second entry (or both without one) give the same run,
    whatever the script is called and whatever arguments follow. *)
Theorem dispatch_reads_one_argument (argv1 argv2 : list string) (w : W) :
  nth_error argv1 1 = nth_error argv2 1 ->
  run h (main argv1) w = run h (main argv2) w.
Proof.
  intros E. unfold main.
  destruct argv1 as [|n1 [|a1 r1]], argv2 as [|n2 [|a2 r2]];
    cbn [nth_error] in E; try discriminate E;
    cbn [List.length Nat.ltb Nat.leb getitem nth_error]; try reflexivity.
  injection E as ->. reflexivity.
Qed.

End Routines.

(** * The script against the scripted controller *)

Example basic_usage_on_two_sessions :
  run (scripted_host two_sessions) demo_basic_usage 0 =
  ([ Printed "=== Available Sessions ===";
     Called ListSessions (Ok (VSeq ["main"; "work"]));
     Printed "  - main";
     Printed "  - work";
     Printed (nl ++ "=== Connecting to 'main' ===");
     Called (Init "main") (Ok (VObj "main"));
     Called (SessionExists "main") (Ok (VBool true));
     Printed (nl ++ "=== Pane Info ===");
     Called (GetPaneInfo "main")
       (Ok (VMap [("pane_width", "80"); ("pane_height", "24")]));
     Printed "  pane_width: 80";
     Printed "  pane_height: 24";
     Printed (nl ++ "=== Execute 'pwd' ===");
     Called (ExecuteAndCapture "main" "pwd" 0.3%float) (Ok (VResult "$ pwd"));
     Printed "Output: $ pwd";
     Printed (nl ++ "=== Execute 'ls -la' ===");
     Called (ExecuteAndCapture "main" "ls -la" 0.5%float) (Ok (VResult "$ ls -la"));
     Printed ("Output:" ++ nl ++ "$ ls -la");
     Printed (nl ++ "=== Current Pane Content (last 10 lines) ===");
     Called (CapturePane "main" (-10)%Z) (Ok (VStr "$"));
     Printed "$" ],
   7, Ok end_of_body).
Proof. reflexivity. Qed.

Example basic_usage_on_gone :
  run (scripted_host gone) demo_basic_usage 0 =
  ([ Printed "=== Available Sessions ===";
     Called ListSessions (Ok (VSeq ["main"]));
     Printed "  - main";
     Printed (nl ++ "=== Connecting to 'main' ===");
     Called (Init "main") (Ok (VObj "main"));
     Called (SessionExists "main") (Ok (VBool false));
     Printed "Session 'main' not found!" ],
   3, Ok early_return).
Proof. reflexivity. Qed.

Example interactive_breaking_at_3 :
  run (scripted_host (breaks_at 3)) demo_interactive_control 0 =
  ([ Called ListSessions (Ok (VSeq ["main"]));
     Called (Init "main") (Ok (VObj "main"));
     Printed "Sending: echo 'Starting task...'";
     Called (SendCommand "main" "echo 'Starting task...'") (Ok VNone);
     Slept 0.2%float;
     Printed "Sending: date";
     Called (SendCommand "main" "date") (Err "TmuxError") ],
   4, Err "TmuxError").
Proof. reflexivity. Qed.

(** What a [try] around a routine would do, which the script does not: the
    exception of the first call is caught and the run ends normally. *)
Example a_try_would_catch :
  run (scripted_host (breaks_at 0))
      (Try demo_interactive_control (fun _ => Ret early_return)) 0 =
  ([Called ListSessions (Err "TmuxError")], 1, Ok early_return).
Proof. reflexivity. Qed.

Example main_interactive_on_nobody :
  run (scripted_host nobody) (main [script_name; "--interactive"]) 0 =
  ([Called ListSessions (Ok (VSeq [])); Printed "No sessions available"], 1, Ok tt).
Proof. reflexivity. Qed.

(** C4, as stated, fails: with one session listed that is gone when asked
    for, [demo_basic_usage] returns early although [list_sessions] returned a
    non-empty sequence. *)
Lemma session_check_also_returns_early :
  ~ only_empty_list_returns_early (scripted_host gone) 0.
Proof.
  intros [Hb _].
  assert (E : ending (run (scripted_host gone) demo_basic_usage 0) = Ok early_return)
    by reflexivity.
  apply Hb in E. vm_compute in E.
  repeat (destruct E as [E|E]; [discriminate E|]). exact E.
Qed.

(** C7, as stated, fails: when [get_pane_info] raises, no early return is
    taken and yet only four of the seven calls are made. *)
Lemma raising_call_cuts_basic_usage_short :
  ~ seven_calls_without_early_return (scripted_host (breaks_at 3)) 0.
Proof.
  intros H. destruct H as (s & c & E).
  - intros E. vm_compute in E. discriminate E.
  - vm_compute in E. discriminate E.
Qed.

(** C9, as stated, fails: when the second [send_command] raises, the list of
    sessions was not empty and yet only two commands were given to
    [send_command]. *)
Lemma raising_send_cuts_interactive_short :
  ~ four_sends_when_listed (scripted_host (breaks_at 3)) 0.
Proof.
  intros H.
  assert (Hin : In (Called ListSessions (Ok (VSeq ["main"])))
                   (events (run (scripted_host (breaks_at 3))
                              demo_interactive_control 0)))
    by (vm_compute; auto 10).
  apply H in Hin. vm_compute in Hin. discriminate Hin.
Qed.

Lemma no_sessions_no_action_witness :
  (In (Called ListSessions (Ok (VSeq [])))
      (events (run (scripted_host nobody) demo_basic_usage 0)) /\
   calls (events (run (scripted_host nobody) demo_basic_usage 0)) = [ListSessions] /\
   ending (run (scripted_host nobody) demo_basic_usage 0) = Ok early_return)
  /\
  (In (Called ListSessions (Ok (VSeq [])))
      (events (run (scripted_host nobody) demo_interactive_control 0)) /\
   calls (events (run (scripted_host nobody) demo_interactive_control 0)) =
     [ListSessions] /\
   ending (run (scripted_host nobody) demo_interactive_control 0) = Ok early_return).
Proof.
  destruct (no_sessions_no_action (scripted_host nobody) 0) as [Hb Hi].
  split.
  - assert (Hin : In (Called ListSessions (Ok (VSeq [])))
                     (events (run (scripted_host nobody) demo_basic_usage 0)))
      by (vm_compute; auto 10).
    split; [exact Hin|]. exact (proj2 (Hb Hin)).
  - assert (Hin : In (Called ListSessions (Ok (VSeq [])))
                     (events (run (scripted_host nobody) demo_interactive_control 0)))
      by (vm_compute; auto 10).
    split; [exact Hin|]. exact (proj2 (Hi Hin)).
Defined.

Lemma connects_to_first_session_witness :
  (In (Called ListSessions (Ok (VSeq ["main"; "work"])))
      (events (run (scripted_host two_sessions) demo_basic_usage 0)) /\
   connections (calls (events (run (scripted_host two_sessions) demo_basic_usage 0))) =
     ["main"])
  /\
  (In (Called ListSessions (Ok (VSeq ["main"; "work"])))
      (events (run (scripted_host two_sessions) demo_interactive_control 0)) /\
   connections
     (calls (events (run (scripted_host two_sessions) demo_interactive_control 0))) =
     ["main"]).
Proof.
  destruct (connects_to_first_session (scripted_host two_sessions) 0 "main" ["work"])
    as [Hb Hi].
  split.
  - assert (Hin : In (Called ListSessions (Ok (VSeq ["main"; "work"])))
                     (events (run (scripted_host two_sessions) demo_basic_usage 0)))
      by (vm_compute; auto 10).
    split; [exact Hin|]. exact (Hb Hin).
  - assert (Hin : In (Called ListSessions (Ok (VSeq ["main"; "work"])))
                     (events (run (scripted_host two_sessions)
                                demo_interactive_control 0)))
      by (vm_compute; auto 10).
    split; [exact Hin|]. exact (Hi Hin).
Defined.

Lemma dispatch_on_first_argument_witness :
  (first_argument [script_name; "--interactive"] = Some "--interactive" /\
   run (scripted_host two_sessions) (main [script_name; "--interactive"]) 0 =
   forget (run (scripted_host two_sessions) demo_interactive_control 0))
  /\
  (first_argument [script_name] <> Some "--interactive" /\
   run (scripted_host two_sessions) (main [script_name]) 0 =
   forget (run (scripted_host two_sessions) demo_basic_usage 0))
  /\
  (first_argument [script_name; "--help"] <> Some "--interactive" /\
   run (scripted_host two_sessions) (main [script_name; "--help"]) 0 =
   forget (run (scripted_host two_sessions) demo_basic_usage 0)).
Proof.
  split; [|split].
  - split; [reflexivity|].
    exact (proj1 (proj1 (dispatch_on_first_argument (scripted_host two_sessions)
                           [script_name; "--interactive"] 0) eq_refl)).
  - assert (Hne : first_argument [script_name] <> Some "--interactive")
      by (cbn; discriminate).
    split; [exact Hne|].
    exact (proj1 (proj2 (dispatch_on_first_argument (scripted_host two_sessions)
                           [script_name] 0) Hne)).
  - assert (Hne : first_argument [script_name; "--help"] <> Some "--interactive")
      by (cbn; discriminate).
    split; [exact Hne|].
    exact (proj1 (proj2 (dispatch_on_first_argument (scripted_host two_sessions)
                           [script_name; "--help"] 0) Hne)).
Defined.

Lemma early_return_conditions_witness :
  (exists c, In (Called (SessionExists c) (Ok (VBool false)))
                (events (run (scripted_host gone) demo_basic_usage 0))) /\
  ending (run (scripted_host gone) demo_basic_usage 0) = Ok early_return /\
  In (Called ListSessions (Ok (VSeq [])))
     (events (run (scripted_host nobody) demo_interactive_control 0)) /\
  ending (run (scripted_host nobody) demo_interactive_control 0) = Ok early_return.
Proof.
  assert (Hc : exists c, In (Called (SessionExists c) (Ok (VBool false)))
                            (events (run (scripted_host gone) demo_basic_usage 0)))
    by (exists "main"; vm_compute; auto 10).
  assert (Hl : In (Called ListSessions (Ok (VSeq [])))
                  (events (run (scripted_host nobody) demo_interactive_control 0)))
    by (vm_compute; auto 10).
  split; [exact Hc|]. split; [|split; [exact Hl|]].
  - exact (proj2 (proj1 (early_return_conditions (scripted_host gone) 0))
             (or_intror Hc)).
  - exact (proj2 (proj2 (early_return_conditions (scripted_host nobody) 0)) Hl).
Defined.

Lemma controller_failure_propagates_witness :
  (In (Called (GetPaneInfo "main") (Err "TmuxError"))
      (events (run (scripted_host (breaks_at 3)) demo_basic_usage 0)) /\
   ending (run (scripted_host (breaks_at 3)) demo_basic_usage 0) = Err "TmuxError")
  /\
  (In (Called (SendCommand "main" "date") (Err "TmuxError"))
      (events (run (scripted_host (breaks_at 3)) demo_interactive_control 0)) /\
   ending (run (scripted_host (breaks_at 3)) demo_interactive_control 0) =
     Err "TmuxError")
  /\
  (In (Called ListSessions (Err "TmuxError"))
      (events (run (scripted_host (breaks_at 0)) (main [script_name]) 0)) /\
   ending (run (scripted_host (breaks_at 0)) (main [script_name]) 0) = Err "TmuxError").
Proof.
  split; [|split].
  - assert (Hin : In (Called (GetPaneInfo "main") (Err "TmuxError"))
                     (events (run (scripted_host (breaks_at 3)) demo_basic_usage 0)))
      by (vm_compute; auto 20).
    split; [exact Hin|].
    exact (proj1 (proj2 (proj1 (controller_failure_propagates
                                  (scripted_host (breaks_at 3)) [] 0
                                  (GetPaneInfo "main") "TmuxError")) Hin)).
  - assert (Hin : In (Called (SendCommand "main" "date") (Err "TmuxError"))
                     (events (run (scripted_host (breaks_at 3))
                                demo_interactive_control 0)))
      by (vm_compute; auto 20).
    split; [exact Hin|].
    exact (proj1 (proj2 (proj1 (proj2 (controller_failure_propagates
                                         (scripted_host (breaks_at 3)) [] 0
                                         (SendCommand "main" "date") "TmuxError")))
                    Hin)).
  - assert (Hin : In (Called ListSessions (Err "TmuxError"))
                     (events (run (scripted_host (breaks_at 0)) (main [script_name]) 0)))
      by (vm_compute; auto 20).
    split; [exact Hin|].
    exact (proj1 (proj2 (proj2 (proj2 (controller_failure_propagates
                                         (scripted_host (breaks_at 0)) [script_name] 0
                                         ListSessions "TmuxError")))
                    Hin)).
Defined.

Lemma pauses_are_fixed_witness :
  (ending (run (scripted_host two_sessions) demo_basic_usage 0) = Ok end_of_body /\
   executed (calls (events (run (scripted_host two_sessions) demo_basic_usage 0))) =
     [("pwd", 0.3%float); ("ls -la", 0.5%float)])
  /\
  (pause_follows_send
     (events (run (scripted_host two_sessions) demo_interactive_control 0)) /\
   sleeps (events (run (scripted_host two_sessions) demo_interactive_control 0)) =
     [0.2%float; 0.2%float; 0.2%float; 0.2%float] /\
   events (run (scripted_host two_sessions) demo_interactive_control 0) =
     Called ListSessions (Ok (VSeq ["main"; "work"]))
     :: Called (Init "main") (Ok (VObj "main"))
     :: rounds "main" commands).
Proof.
  assert (E : ending (run (scripted_host two_sessions) demo_basic_usage 0) =
              Ok end_of_body) by reflexivity.
  destruct (pauses_are_fixed (scripted_host two_sessions) 0)
    as [(_ & Hb & _) (Hp & Hs & _)].
  split.
  - split; [exact E|]. exact (Hb E).
  - split; [exact Hp|]. split; [exact Hs|]. reflexivity.
Defined.

Lemma basic_usage_call_order_witness :
  ending (run (scripted_host two_sessions) demo_basic_usage 0) <> Ok early_return /\
  failures (events (run (scripted_host two_sessions) demo_basic_usage 0)) = [] /\
  exists s rest c,
    In (Called ListSessions (Ok (VSeq (s :: rest))))
       (events (run (scripted_host two_sessions) demo_basic_usage 0)) /\
    In (Called (Init s) (Ok (VObj c)))
       (events (run (scripted_host two_sessions) demo_basic_usage 0)) /\
    calls (events (run (scripted_host two_sessions) demo_basic_usage 0)) =
      [ ListSessions;
        Init s;
        SessionExists c;
        GetPaneInfo c;
        ExecuteAndCapture c "pwd" 0.3%float;
        ExecuteAndCapture c "ls -la" 0.5%float;
        CapturePane c (-10)%Z ].
Proof.
  assert (Hne : ending (run (scripted_host two_sessions) demo_basic_usage 0) <>
                Ok early_return)
    by (intros E; vm_compute in E; discriminate E).
  assert (Hf : failures (events (run (scripted_host two_sessions) demo_basic_usage 0)) =
               []) by reflexivity.
  split; [exact Hne|]. split; [exact Hf|].
  exact (basic_usage_call_order (scripted_host two_sessions) 0 Hne Hf).
Defined.

Lemma interactive_skips_session_check_witness :
  (In (Called ListSessions (Ok (VSeq ["main"; "work"])))
      (events (run (scripted_host two_sessions) demo_interactive_control 0)) /\
   In (Called (Init "main") (Ok (VObj "main")))
      (events (run (scripted_host two_sessions) demo_interactive_control 0)) /\
   exists more,
     calls (events (run (scripted_host two_sessions) demo_interactive_control 0)) =
       ListSessions :: Init "main" :: SendCommand "main" "echo 'Starting task...'"
       :: more)
  /\
  (In (Called ListSessions (Ok (VSeq ["main"; "work"])))
      (events (run (scripted_host two_sessions) demo_basic_usage 0)) /\
   In (Called (Init "main") (Ok (VObj "main")))
      (events (run (scripted_host two_sessions) demo_basic_usage 0)) /\
   exists more,
     calls (events (run (scripted_host two_sessions) demo_basic_usage 0)) =
       ListSessions :: Init "main" :: SessionExists "main" :: more).
Proof.
  destruct (interactive_skips_session_check (scripted_host two_sessions) 0
              "main" ["work"] "main") as (_ & Hi & Hb).
  split.
  - assert (Hl : In (Called ListSessions (Ok (VSeq ["main"; "work"])))
                    (events (run (scripted_host two_sessions)
                               demo_interactive_control 0)))
      by (vm_compute; auto 10).
    assert (Hc : In (Called (Init "main") (Ok (VObj "main")))
                    (events (run (scripted_host two_sessions)
                               demo_interactive_control 0)))
      by (vm_compute; auto 10).
    split; [exact Hl|]. split; [exact Hc|]. exact (proj2 (Hi Hl) Hc).
  - assert (Hl : In (Called ListSessions (Ok (VSeq ["main"; "work"])))
                    (events (run (scripted_host two_sessions) demo_basic_usage 0)))
      by (vm_compute; auto 10).
    assert (Hc : In (Called (Init "main") (Ok (VObj "main")))
                    (events (run (scripted_host two_sessions) demo_basic_usage 0)))
      by (vm_compute; auto 10).
    split; [exact Hl|]. split; [exact Hc|]. exact (Hb Hl Hc).
Defined.

Lemma interactive_sends_four_commands_witness :
  In (Called ListSessions (Ok (VSeq ["main"; "work"])))
     (events (run (scripted_host two_sessions) demo_interactive_control 0)) /\
  failures (events (run (scripted_host two_sessions) demo_interactive_control 0)) = [] /\
  sent (calls (events (run (scripted_host two_sessions) demo_interactive_control 0))) =
    [ "echo 'Starting task...'"; "date"; "hostname"; "echo 'Task complete!'" ].
Proof.
  assert (Hl : In (Called ListSessions (Ok (VSeq ["main"; "work"])))
                  (events (run (scripted_host two_sessions)
                             demo_interactive_control 0)))
    by (vm_compute; auto 10).
  assert (E : failures (events (run (scripted_host two_sessions)
                                  demo_interactive_control 0)) = [])
    by reflexivity.
  split; [exact Hl|]. split; [exact E|].
  exact (proj1 (interactive_sends_four_commands (scripted_host two_sessions) 0
                  "main" ["work"] Hl) E).
Defined.

Lemma basic_usage_output_witness :
  ending (run (scripted_host two_sessions) demo_basic_usage 0) = Ok end_of_body /\
  printed (events (run (scripted_host two_sessions) demo_basic_usage 0)) =
    [ "=== Available Sessions ===";
      "  - main";
      "  - work";
      (nl ++ "=== Connecting to 'main' ===")%string;
      (nl ++ "=== Pane Info ===")%string;
      "  pane_width: 80";
      "  pane_height: 24";
      (nl ++ "=== Execute 'pwd' ===")%string;
      "Output: $ pwd";
      (nl ++ "=== Execute 'ls -la' ===")%string;
      ("Output:" ++ nl ++ "$ ls -la")%string;
      (nl ++ "=== Current Pane Content (last 10 lines) ===")%string;
      "$" ].
Proof.
  assert (E : ending (run (scripted_host two_sessions) demo_basic_usage 0) =
              Ok end_of_body) by reflexivity.
  split; [exact E|].
  destruct (basic_usage_output (scripted_host two_sessions) 0 E)
    as (session & rest & c & info & r1 & r2 & content & Hr & Hp).
  injection Hr as <- <- <- <- <- <- <-. exact Hp.
Defined.

Lemma sessions_listed_before_connecting_witness :
  In (Called ListSessions (Ok (VSeq ["main"])))
     (events (run (scripted_host (breaks_at 1)) demo_basic_usage 0)) /\
  exists more,
    printed (events (run (scripted_host (breaks_at 1)) demo_basic_usage 0)) =
      "=== Available Sessions ==="
      :: map (fun s => "  - " ++ s)%string ["main"]
      ++ (nl ++ "=== Connecting to '" ++ "main" ++ "' ===")%string :: more.
Proof.
  assert (Hin : In (Called ListSessions (Ok (VSeq ["main"])))
                   (events (run (scripted_host (breaks_at 1)) demo_basic_usage 0)))
    by (vm_compute; auto 10).
  split; [exact Hin|].
  exact (sessions_listed_before_connecting (scripted_host (breaks_at 1)) 0 "main" [] Hin).
Defined.

Lemma missing_session_stops_basic_usage_witness :
  In (Called (SessionExists "main") (Ok (VBool false)))
     (events (run (scripted_host gone) demo_basic_usage 0)) /\
  exists s,
    calls (events (run (scripted_host gone) demo_basic_usage 0)) =
      [ListSessions; Init s; SessionExists "main"] /\
    existsb is_pane_op (calls (events (run (scripted_host gone) demo_basic_usage 0))) =
      false /\
    ending (run (scripted_host gone) demo_basic_usage 0) = Ok early_return.
Proof.
  assert (Hin : In (Called (SessionExists "main") (Ok (VBool false)))
                   (events (run (scripted_host gone) demo_basic_usage 0)))
    by (vm_compute; auto 10).
  split; [exact Hin|].
  destruct (missing_session_stops_basic_usage (scripted_host gone) 0 "main" Hin)
    as (s & rest & _ & Hrest).
  exists s. exact Hrest.
Defined.

Lemma every_send_is_announced_witness :
  ending (run (scripted_host (breaks_at 3)) demo_interactive_control 0) <>
    Ok early_return /\
  printed (events (run (scripted_host (breaks_at 3)) demo_interactive_control 0)) =
  map (fun cmd => "Sending: " ++ cmd)%string
      (sent (calls (events (run (scripted_host (breaks_at 3))
                              demo_interactive_control 0)))).
Proof.
  assert (Hne : ending (run (scripted_host (breaks_at 3)) demo_interactive_control 0) <>
                Ok early_return)
    by (intros E; vm_compute in E; discriminate E).
  split; [exact Hne|].
  exact (every_send_is_announced (scripted_host (breaks_at 3)) 0 Hne).
Defined.

Lemma subscripts_never_out_of_range_witness :
  (ending (run (scripted_host (breaks_at 5)) demo_basic_usage 0) = Err "TmuxError" /\
   exists o, In (Called o (Err "TmuxError"))
                (events (run (scripted_host (breaks_at 5)) demo_basic_usage 0)))
  /\
  (ending (run (scripted_host (breaks_at 1)) demo_interactive_control 0) =
     Err "TmuxError" /\
   exists o, In (Called o (Err "TmuxError"))
                (events (run (scripted_host (breaks_at 1)) demo_interactive_control 0)))
  /\
  (ending (run (scripted_host (breaks_at 2)) (main [script_name; "--interactive"]) 0) =
     Err "TmuxError" /\
   exists o, In (Called o (Err "TmuxError"))
                (events (run (scripted_host (breaks_at 2))
                           (main [script_name; "--interactive"]) 0))).
Proof.
  split; [|split]; (split; [reflexivity|]).
  - exact (proj1 (subscripts_never_out_of_range (scripted_host (breaks_at 5)) [] 0
                    "TmuxError") eq_refl).
  - exact (proj1 (proj2 (subscripts_never_out_of_range (scripted_host (breaks_at 1)) [] 0
                           "TmuxError")) eq_refl).
  - exact (proj2 (proj2 (subscripts_never_out_of_range (scripted_host (breaks_at 2))
                           [script_name; "--interactive"] 0 "TmuxError")) eq_refl).
Defined.

Lemma basic_usage_calls_prefix_witness :
  In (Called (Init "main") (Ok (VObj "main")))
     (events (run (scripted_host (breaks_at 4)) demo_basic_usage 0)) /\
  exists n,
    calls (events (run (scripted_host (breaks_at 4)) demo_basic_usage 0)) =
    firstn n [ ListSessions;
               Init "main";
               SessionExists "main";
               GetPaneInfo "main";
               ExecuteAndCapture "main" "pwd" 0.3%float;
               ExecuteAndCapture "main" "ls -la" 0.5%float;
               CapturePane "main" (-10)%Z ].
Proof.
  assert (Hin : In (Called (Init "main") (Ok (VObj "main")))
                   (events (run (scripted_host (breaks_at 4)) demo_basic_usage 0)))
    by (vm_compute; auto 10).
  split; [exact Hin|].
  exact (basic_usage_calls_prefix (scripted_host (breaks_at 4)) 0 "main" "main" Hin).
Defined.

Lemma pane_used_only_after_check_witness :
  In (ExecuteAndCapture "main" "ls -la" 0.5%float)
     (calls (events (run (scripted_host two_sessions) demo_basic_usage 0))) /\
  exists c,
    self_of (ExecuteAndCapture "main" "ls -la" 0.5%float) = Some c /\
    In (Called (SessionExists c) (Ok (VBool true)))
       (events (run (scripted_host two_sessions) demo_basic_usage 0)).
Proof.
  assert (Hin : In (ExecuteAndCapture "main" "ls -la" 0.5%float)
                   (calls (events (run (scripted_host two_sessions)
                                     demo_basic_usage 0))))
    by (vm_compute; auto 10).
  split; [exact Hin|].
  exact (pane_used_only_after_check (scripted_host two_sessions) 0
           (ExecuteAndCapture "main" "ls -la" 0.5%float) Hin eq_refl).
Defined.

Lemma dispatch_reads_one_argument_witness :
  nth_error [script_name; "--interactive"] 1 =
  nth_error ["other.py"; "--interactive"; "--verbose"] 1 /\
  run (scripted_host two_sessions) (main [script_name; "--interactive"]) 0 =
  run (scripted_host two_sessions) (main ["other.py"; "--interactive"; "--verbose"]) 0.
Proof.
  split; [reflexivity|].
  exact (dispatch_reads_one_argument (scripted_host two_sessions)
           [script_name; "--interactive"]
           ["other.py"; "--interactive"; "--verbose"] 0 eq_refl).
Defined.
